(** * Weather analyzer: a shallow embedding of [weather_analyzer.py]

    The development follows the Python class [WeatherAnalyzer]:
    the synthetic forecast generator, the fetch method that stores and
    returns its output, and the temperature analysis.

    Conventions of the embedding.
    - Python [int] is [Z]; [%] on a positive modulus is [Z.modulo].
    - A naive [datetime] is the number of microseconds elapsed since
      [datetime.min] (0001-01-01T00:00:00); a [timedelta] is a signed number
      of microseconds.  Both types are bounded in Python and their
      arithmetic raises [OverflowError] outside the bounds.
    - [datetime.now()] is an input of the embedding: the clock reading.
    - [datetime.isoformat] belongs to the Python library and is a parameter
      of the development.
    - A raised exception is the [Raise] result of an error monad.
    - [/] between two [int]s is true division.  The embedding keeps the
      exact quotient as a rational number; Python returns the binary64
      number nearest to that quotient. *)

From Stdlib Require Import ZArith QArith Lia.
From stdpp Require Import base option list strings pretty gmap.

Local Open Scope Z_scope.

(** ** Exceptions and the error monad *)

Inductive exn : Type :=
| ValueError
| ZeroDivisionError
| OverflowError.

Inductive result (A : Type) : Type :=
| Ok (a : A)
| Raise (e : exn).

Arguments Ok {A} a.
Arguments Raise {A} e.

#[global] Instance result_ret : MRet result := fun _ a => Ok a.

#[global] Instance result_bind : MBind result := fun _ _ f m =>
  match m with
  | Ok a => f a
  | Raise e => Raise e
  end.

#[global] Instance result_fmap : FMap result := fun _ _ f m =>
  match m with
  | Ok a => Ok (f a)
  | Raise e => Raise e
  end.

(** ** Dates and durations *)

Module Datetime.

Definition us_per_hour : Z := 3600000000.
Definition us_per_day : Z := 86400000000.

(** [date.max.toordinal()], the number of days from 0001-01-01 to
    9999-12-31, both included. *)
Definition max_ordinal : Z := 3652059.

(** [datetime.max], 9999-12-31T23:59:59.999999. *)
Definition max : Z := max_ordinal * us_per_day - 1.

(** [timedelta(hours=h)]: the constructor refuses durations of more than
    999999999 days in either direction. *)
Definition timedelta_hours (h : Z) : result Z :=
  let d := h * us_per_hour in
  if (-999999999 <=? d / us_per_day) && (d / us_per_day <=? 999999999)
  then Ok d
  else Raise OverflowError.

(** [t + delta] for a datetime [t]. *)
Definition add (t delta : Z) : result Z :=
  let r := t + delta in
  if (0 <=? r) && (r <=? max) then Ok r else Raise OverflowError.

End Datetime.

(** ** The data model *)

(** One element of [self.data]: a dict with the four keys written by
    [_generate_sample_data]. *)
Record WeatherRecord : Type := mkWeatherRecord {
  datetime : string;
  temperature : Z;
  humidity : Z;
  wind_speed : Z
}.

Record WeatherAnalyzer : Type := mkWeatherAnalyzer {
  api_key : string;
  base_url : string;
  data : list WeatherRecord
}.

(** [api_key or "YOUR_API_KEY"]: [None] and the empty string are falsy. *)
Definition __init__ (key : option string) : WeatherAnalyzer :=
  {| api_key := match key with
                | Some k => if String.eqb k "" then "YOUR_API_KEY" else k
                | None => "YOUR_API_KEY"
                end;
     base_url := "https://api.openweathermap.org/data/2.5/forecast";
     data := [] |}.

(** [range(n)] *)
Definition range (n : nat) : list Z := Z.of_nat <$> seq 0 n.

(** ** Built-in functions used by the analysis *)

(** [min(xs)]: keeps the first element and replaces it by every later
    element that is strictly smaller; raises on the empty list. *)
Definition py_min (xs : list Z) : result Z :=
  match xs with
  | [] => Raise ValueError
  | x :: rest => Ok (fold_left (fun m y => if y <? m then y else m) rest x)
  end.

Definition py_max (xs : list Z) : result Z :=
  match xs with
  | [] => Raise ValueError
  | x :: rest => Ok (fold_left (fun m y => if m <? y then y else m) rest x)
  end.

(** [sum(xs)] *)
Definition py_sum (xs : list Z) : Z := fold_left Z.add xs 0.

(** [len(xs)] *)
Definition py_len {A} (xs : list A) : Z := Z.of_nat (length xs).

(** [a / b] on two [int]s. *)
Definition true_div (a b : Z) : result Q :=
  if b =? 0 then Raise ZeroDivisionError
  else Ok (inject_Z a / inject_Z b)%Q.

(** ** The methods of [WeatherAnalyzer] *)

Section Analyzer.

(** [datetime.isoformat], applied to a datetime given by its microsecond
    count. *)
Variable isoformat : Z -> string.

(** The body of the [for] loop of [_generate_sample_data], run over the
    remaining indices [idxs] with the list [acc] built so far. *)
Fixpoint generate_loop (now : Z) (idxs : list Z) (acc : list WeatherRecord)
  : result (list WeatherRecord) :=
  match idxs with
  | [] => Ok acc
  | i :: rest =>
      delta ← Datetime.timedelta_hours (i * 3);
      time ← Datetime.add now delta;
      let temp_variation := i mod 8 - 4 in
      generate_loop now rest
        (acc ++ [ {| datetime := isoformat time;
                     temperature := 20 + temp_variation + i mod 3;
                     humidity := 60 + i mod 20;
                     wind_speed := 5 + i mod 10 |} ])
  end.

Definition _generate_sample_data (now : Z) : result (list WeatherRecord) :=
  generate_loop now (range 40) [].

(** The method builds [params] and does not use it; it stores the
    generated list in [self.data] and returns the same list. *)
Definition fetch_weather_forecast (self : WeatherAnalyzer) (city : string)
    (now : Z) : result (WeatherAnalyzer * list WeatherRecord) :=
  let params : gmap string string :=
    <["units" := "metric"]> (<["appid" := api_key self]> (<["q" := city]> ∅)) in
  d ← _generate_sample_data now;
  mret ({| api_key := api_key self; base_url := base_url self; data := d |}, d).

(** The tuple is evaluated from left to right. *)
Definition analyze_temperature_trends (self : WeatherAnalyzer)
  : result (Z * Z * Q) :=
  let temps := temperature <$> data self in
  lo ← py_min temps;
  hi ← py_max temps;
  mean ← true_div (py_sum temps) (py_len temps);
  mret (lo, hi, mean).

End Analyzer.

(** ** Closed form of the generated records *)

(** The instant of sample [i]: [now + timedelta(hours=i*3)]. *)
Definition sample_time (now i : Z) : Z := now + i * 3 * Datetime.us_per_hour.

Definition sample_record (isoformat : Z -> string) (now i : Z) : WeatherRecord :=
  {| datetime := isoformat (sample_time now i);
     temperature := 20 + (i mod 8 - 4) + i mod 3;
     humidity := 60 + i mod 20;
     wind_speed := 5 + i mod 10 |}.

(** The clock readings for which the 40 instants of a forecast, the last one
    117 hours after the first, are Python datetimes. *)
Definition forecast_window (now : Z) : Prop :=
  0 <= now /\ now + 117 * Datetime.us_per_hour <= Datetime.max.

(** The record [r] with its timestamp replaced. *)
Definition with_datetime (r : WeatherRecord) (s : string) : WeatherRecord :=
  {| datetime := s; temperature := temperature r;
     humidity := humidity r; wind_speed := wind_speed r |}.

(** An instance of the [isoformat] parameter on which the definitions can
    be run: the decimal microsecond count. *)
Definition isoformat_us (t : Z) : string := pretty t.

(** A clock reading on which the theorems are run: 2025-01-01T00:00:00,
    whose proleptic Gregorian ordinal is 739252. *)
Definition clock_2025 : Z := (739252 - 1) * Datetime.us_per_day.

(** * Properties *)

(** ** The generator *)

Lemma timedelta_hours_small (h : Z) :
  0 <= h <= 117 ->
  Datetime.timedelta_hours h = Ok (h * Datetime.us_per_hour).
Proof.
  intros Hh. unfold Datetime.timedelta_hours.
  assert (0 <= h * Datetime.us_per_hour / Datetime.us_per_day <= 5) as Hq.
  { unfold Datetime.us_per_hour, Datetime.us_per_day. split.
    - apply Z.div_pos; lia.
    - apply Z.div_le_upper_bound; lia. }
  cbv zeta.
  destruct (Z.leb_spec (-999999999) (h * Datetime.us_per_hour / Datetime.us_per_day));
    [|lia].
  destruct (Z.leb_spec (h * Datetime.us_per_hour / Datetime.us_per_day) 999999999);
    [|lia].
  reflexivity.
Qed.

Lemma datetime_add_in_window (now i : Z) :
  forecast_window now -> 0 <= i < 40 ->
  Datetime.add now (i * 3 * Datetime.us_per_hour) = Ok (sample_time now i).
Proof.
  intros [Hlo Hhi] Hi. unfold Datetime.add, sample_time.
  unfold Datetime.us_per_hour in *. cbv zeta.
  destruct (Z.leb_spec 0 (now + i * 3 * 3600000000)); [|lia].
  destruct (Z.leb_spec (now + i * 3 * 3600000000) Datetime.max); [|lia].
  reflexivity.
Qed.

Lemma generate_loop_closed_form isoformat now idxs acc :
  forecast_window now ->
  Forall (fun i => 0 <= i < 40) idxs ->
  generate_loop isoformat now idxs acc
  = Ok (acc ++ (sample_record isoformat now <$> idxs)).
Proof.
  intros Hw Hidx. revert acc.
  induction Hidx as [|i rest Hi _ IH]; intros acc; simpl.
  - by rewrite app_nil_r.
  - rewrite timedelta_hours_small by lia. simpl.
    rewrite datetime_add_in_window by done. simpl.
    rewrite IH, <- app_assoc. reflexivity.
Qed.

Lemma range_bounds (n : nat) :
  Forall (fun i => 0 <= i < Z.of_nat n) (range n).
Proof.
  unfold range. apply Forall_fmap, Forall_forall.
  intros k Hk. apply elem_of_seq in Hk. simpl. lia.
Qed.

Lemma range_lookup (n i : nat) :
  (i < n)%nat -> range n !! i = Some (Z.of_nat i).
Proof.
  intros Hi. unfold range. rewrite list_lookup_fmap, lookup_seq_lt by done.
  reflexivity.
Qed.

Lemma generate_closed_form isoformat now :
  forecast_window now ->
  _generate_sample_data isoformat now
  = Ok (sample_record isoformat now <$> range 40).
Proof.
  intros Hw. unfold _generate_sample_data.
  rewrite generate_loop_closed_form; [done | done | apply (range_bounds 40)].
Qed.

Lemma generated_lookup isoformat now (i : nat) :
  (i < 40)%nat ->
  (sample_record isoformat now <$> range 40) !! i
  = Some (sample_record isoformat now (Z.of_nat i)).
Proof.
  intros Hi. rewrite list_lookup_fmap, range_lookup by done. reflexivity.
Qed.

Lemma generated_length isoformat now :
  length (sample_record isoformat now <$> range 40) = 40%nat.
Proof. reflexivity. Qed.

Lemma fetch_closed_form isoformat self city now :
  forecast_window now ->
  fetch_weather_forecast isoformat self city now
  = Ok ({| api_key := api_key self; base_url := base_url self;
           data := sample_record isoformat now <$> range 40 |},
        sample_record isoformat now <$> range 40).
Proof.
  intros Hw. unfold fetch_weather_forecast.
  rewrite generate_closed_form by done. reflexivity.
Qed.

(** Outside the window the loop stops with the exception of the datetime
    addition: the hypothesis [forecast_window] is needed. *)
Lemma generate_overflow_at_max isoformat :
  _generate_sample_data isoformat Datetime.max = Raise OverflowError.
Proof. reflexivity. Qed.

(** ** The built-in reductions *)

Lemma fold_min_spec (rest : list Z) (x : Z) :
  let m := fold_left (fun m y => if y <? m then y else m) rest x in
  m ∈ x :: rest /\ forall y, y ∈ x :: rest -> m <= y.
Proof.
  revert x. induction rest as [|y0 rest IH]; intros x; simpl.
  - split; [left|]. intros y Hy. apply list_elem_of_singleton in Hy. lia.
  - destruct (IH (if y0 <? x then y0 else x)) as [Hin Hle]. split.
    + apply elem_of_cons in Hin as [-> | Hin].
      * destruct (y0 <? x); [right; left | left].
      * do 2 right. exact Hin.
    + intros y Hy.
      assert ((if y0 <? x then y0 else x) <= x /\
              (if y0 <? x then y0 else x) <= y0) as [Hx Hy0]
        by (destruct (Z.ltb_spec y0 x); lia).
      pose proof (Hle _ (list_elem_of_here _ _)) as Hm.
      apply elem_of_cons in Hy as [-> | Hy]; [lia|].
      apply elem_of_cons in Hy as [-> | Hy]; [lia|].
      apply Hle. right. exact Hy.
Qed.

Lemma fold_max_spec (rest : list Z) (x : Z) :
  let m := fold_left (fun m y => if m <? y then y else m) rest x in
  m ∈ x :: rest /\ forall y, y ∈ x :: rest -> y <= m.
Proof.
  revert x. induction rest as [|y0 rest IH]; intros x; simpl.
  - split; [left|]. intros y Hy. apply list_elem_of_singleton in Hy. lia.
  - destruct (IH (if x <? y0 then y0 else x)) as [Hin Hle]. split.
    + apply elem_of_cons in Hin as [-> | Hin].
      * destruct (x <? y0); [right; left | left].
      * do 2 right. exact Hin.
    + intros y Hy.
      assert (x <= (if x <? y0 then y0 else x) /\
              y0 <= (if x <? y0 then y0 else x)) as [Hx Hy0]
        by (destruct (Z.ltb_spec x y0); lia).
      pose proof (Hle _ (list_elem_of_here _ _)) as Hm.
      apply elem_of_cons in Hy as [-> | Hy]; [lia|].
      apply elem_of_cons in Hy as [-> | Hy]; [lia|].
      apply Hle. right. exact Hy.
Qed.

Lemma py_min_spec (xs : list Z) :
  xs ≠ [] ->
  exists m, py_min xs = Ok m /\ m ∈ xs /\ forall y, y ∈ xs -> m <= y.
Proof.
  destruct xs as [|x rest]; [done|]. intros _.
  eexists. split; [reflexivity|]. apply fold_min_spec.
Qed.

Lemma py_max_spec (xs : list Z) :
  xs ≠ [] ->
  exists m, py_max xs = Ok m /\ m ∈ xs /\ forall y, y ∈ xs -> y <= m.
Proof.
  destruct xs as [|x rest]; [done|]. intros _.
  eexists. split; [reflexivity|]. apply fold_max_spec.
Qed.

Lemma fold_sum_bounds (xs : list Z) (lo hi a : Z) :
  (forall y, y ∈ xs -> lo <= y <= hi) ->
  a + py_len xs * lo <= fold_left Z.add xs a <= a + py_len xs * hi.
Proof.
  unfold py_len. revert a. induction xs as [|x xs IH]; intros a Hb.
  - simpl. lia.
  - assert (lo <= x <= hi) as Hx by (apply Hb; left).
    specialize (IH (a + x) (fun y Hy => Hb y (list_elem_of_further _ _ _ Hy))).
    cbn [fold_left]. rewrite length_cons, Nat2Z.inj_succ. lia.
Qed.

Lemma py_sum_bounds (xs : list Z) (lo hi : Z) :
  (forall y, y ∈ xs -> lo <= y <= hi) ->
  py_len xs * lo <= py_sum xs <= py_len xs * hi.
Proof.
  intros Hb. pose proof (fold_sum_bounds xs lo hi 0 Hb) as H.
  unfold py_sum. lia.
Qed.

Lemma py_len_pos {A} (xs : list A) : xs ≠ [] -> 0 < py_len xs.
Proof. destruct xs; [done|]. intros _. unfold py_len. simpl. lia. Qed.

Lemma true_div_pos (a b : Z) :
  0 < b -> true_div a b = Ok (inject_Z a / inject_Z b)%Q.
Proof.
  intros Hb. unfold true_div. destruct (Z.eqb_spec b 0); [lia | reflexivity].
Qed.

(** The exact quotient lies between two integers that bound it. *)
Lemma quotient_between (lo hi s n : Z) :
  0 < n -> n * lo <= s <= n * hi ->
  (inject_Z lo <= inject_Z s / inject_Z n)%Q /\
  (inject_Z s / inject_Z n <= inject_Z hi)%Q.
Proof.
  intros Hn [Hlo Hhi].
  assert (0 < inject_Z n)%Q as Hn' by (rewrite (Zlt_Qlt 0 n) in Hn; exact Hn).
  split.
  - apply Qle_shift_div_l; [exact Hn'|].
    rewrite <- inject_Z_mult, <- Zle_Qle. lia.
  - apply Qle_shift_div_r; [exact Hn'|].
    rewrite <- inject_Z_mult, <- Zle_Qle. lia.
Qed.

(** ** The generated forecast *)

Lemma clock_2025_in_window : forecast_window clock_2025.
Proof. unfold forecast_window. vm_compute. split; discriminate. Qed.

(** C2. Whenever the forecast window is representable, the generator returns
    a list whose record at every index [i] below 40 has temperature
    [20 + ((i mod 8) - 4) + (i mod 3)], humidity [60 + (i mod 20)] and
    wind speed [5 + (i mod 10)]. *)
Theorem generated_record_fields (isoformat : Z -> string) (now : Z) :
  forecast_window now ->
  exists d, _generate_sample_data isoformat now = Ok d /\
    forall i : nat, (i < 40)%nat ->
      exists r, d !! i = Some r /\
        temperature r = 20 + ((Z.of_nat i mod 8) - 4) + (Z.of_nat i mod 3) /\
        humidity r = 60 + (Z.of_nat i mod 20) /\
        wind_speed r = 5 + (Z.of_nat i mod 10).
Proof.
  intros Hw. eexists. split; [by apply generate_closed_form|].
  intros i Hi. eexists. split; [by apply generated_lookup|].
  repeat split.
Qed.

Lemma generated_record_fields_witness :
  forecast_window clock_2025 /\
  exists d, _generate_sample_data isoformat_us clock_2025 = Ok d /\
    forall i : nat, (i < 40)%nat ->
      exists r, d !! i = Some r /\
        temperature r = 20 + ((Z.of_nat i mod 8) - 4) + (Z.of_nat i mod 3) /\
        humidity r = 60 + (Z.of_nat i mod 20) /\
        wind_speed r = 5 + (Z.of_nat i mod 10).
Proof.
  split; [exact clock_2025_in_window|].
  apply (generated_record_fields isoformat_us clock_2025).
  exact clock_2025_in_window.
Defined.

(** C10. Every generated record has humidity in [60, 79], hence in
    [0, 100], wind speed in [5, 14], hence non-negative, and temperature
    in [16, 25]. *)
Theorem generated_ranges (isoformat : Z -> string) (now : Z) :
  forecast_window now ->
  exists d, _generate_sample_data isoformat now = Ok d /\
    length d = 40%nat /\
    forall (i : nat) (r : WeatherRecord), d !! i = Some r ->
      (60 <= humidity r <= 79 /\ 0 <= humidity r <= 100) /\
      (5 <= wind_speed r <= 14 /\ 0 <= wind_speed r) /\
      16 <= temperature r <= 25.
Proof.
  intros Hw. eexists. split; [by apply generate_closed_form|].
  split; [reflexivity|].
  intros i r Hr.
  assert (i < 40)%nat as Hi.
  { apply lookup_lt_Some in Hr. by rewrite generated_length in Hr. }
  rewrite generated_lookup in Hr by done. injection Hr as <-. simpl.
  pose proof (Z.mod_pos_bound (Z.of_nat i) 20 ltac:(lia)).
  pose proof (Z.mod_pos_bound (Z.of_nat i) 10 ltac:(lia)).
  pose proof (Z.mod_pos_bound (Z.of_nat i) 8 ltac:(lia)).
  pose proof (Z.mod_pos_bound (Z.of_nat i) 3 ltac:(lia)).
  lia.
Qed.

Lemma generated_ranges_witness :
  forecast_window clock_2025 /\
  exists d, _generate_sample_data isoformat_us clock_2025 = Ok d /\
    length d = 40%nat /\
    forall (i : nat) (r : WeatherRecord), d !! i = Some r ->
      (60 <= humidity r <= 79 /\ 0 <= humidity r <= 100) /\
      (5 <= wind_speed r <= 14 /\ 0 <= wind_speed r) /\
      16 <= temperature r <= 25.
Proof.
  split; [exact clock_2025_in_window|].
  apply (generated_ranges isoformat_us clock_2025).
  exact clock_2025_in_window.
Defined.

(** The bounds of the temperature range are reached, at indices 0 and 23. *)
Lemma generated_temperature_extremes (isoformat : Z -> string) (now : Z) :
  temperature (sample_record isoformat now 0) = 16 /\
  temperature (sample_record isoformat now 23) = 25.
Proof. split; reflexivity. Qed.

(** ** Fetching *)

Lemma sample_time_spacing (now i : Z) :
  sample_time now (i + 1) - sample_time now i = 3 * Datetime.us_per_hour.
Proof. unfold sample_time. lia. Qed.

Lemma sample_time_increasing (now i j : Z) :
  i < j -> sample_time now i < sample_time now j.
Proof. unfold sample_time, Datetime.us_per_hour. lia. Qed.

(** C3. For every city, when the forecast window is representable, the
    fetch returns (and stores) exactly 40 records; the timestamp of record
    [i] renders the clock reading plus [i] times three hours, and these
    instants are strictly increasing with a spacing of exactly three hours. *)
Theorem fetch_forty_records_three_hours_apart
    (isoformat : Z -> string) (self : WeatherAnalyzer) (city : string) (now : Z) :
  forecast_window now ->
  exists self' d,
    fetch_weather_forecast isoformat self city now = Ok (self', d) /\
    data self' = d /\
    length d = 40%nat /\
    (forall i : nat, (i < 40)%nat ->
       exists r, d !! i = Some r /\
         datetime r = isoformat (sample_time now (Z.of_nat i))) /\
    (forall i : nat,
       sample_time now (Z.of_nat i)
       = now + Z.of_nat i * (3 * Datetime.us_per_hour)) /\
    (forall i j : nat, (i < j)%nat ->
       sample_time now (Z.of_nat i) < sample_time now (Z.of_nat j)) /\
    (forall i : nat,
       sample_time now (Z.of_nat (S i)) - sample_time now (Z.of_nat i)
       = 3 * Datetime.us_per_hour).
Proof.
  intros Hw. eexists _, _. split; [by apply fetch_closed_form|].
  split; [reflexivity|]. split; [reflexivity|]. split; [|split; [|split]].
  - intros i Hi. eexists. split; [by apply generated_lookup|]. reflexivity.
  - intros i. unfold sample_time, Datetime.us_per_hour. lia.
  - intros i j Hij. apply sample_time_increasing. lia.
  - intros i. rewrite Nat2Z.inj_succ. apply sample_time_spacing.
Qed.

Lemma fetch_forty_records_three_hours_apart_witness :
  forecast_window clock_2025 /\
  exists self' d,
    fetch_weather_forecast isoformat_us (__init__ None) "London" clock_2025
    = Ok (self', d) /\
    data self' = d /\
    length d = 40%nat.
Proof.
  split; [exact clock_2025_in_window|].
  destruct (fetch_forty_records_three_hours_apart isoformat_us (__init__ None)
              "London" clock_2025 clock_2025_in_window)
    as (self' & d & Hfetch & Hdata & Hlen & _).
  exists self', d. repeat split; assumption.
Defined.

Lemma fetch_returned_independent_of_self (isoformat : Z -> string)
    (self1 self2 : WeatherAnalyzer) (city1 city2 : string) (now : Z) :
  snd <$> fetch_weather_forecast isoformat self1 city1 now
  = snd <$> fetch_weather_forecast isoformat self2 city2 now.
Proof.
  unfold fetch_weather_forecast.
  destruct (_generate_sample_data isoformat now); reflexivity.
Qed.

(** C7. The sequence returned by a fetch depends neither on the city nor on
    the configured API key: two calls that read the same clock value return
    the same result, whatever the two cities and the two keys are. *)
Theorem fetch_ignores_city_and_api_key (isoformat : Z -> string)
    (key1 key2 : option string) (city1 city2 : string) (now : Z) :
  snd <$> fetch_weather_forecast isoformat (__init__ key1) city1 now
  = snd <$> fetch_weather_forecast isoformat (__init__ key2) city2 now.
Proof. apply fetch_returned_independent_of_self. Qed.

(** C8. Two fetches are deterministic up to the clock: when both forecast
    windows are representable both calls return 40 records, the two
    sequences are equal when the clock readings are, and in general record
    [i] of the second call is record [i] of the first one with its instant
    moved by the difference of the two clock readings. *)
Theorem fetch_deterministic_modulo_clock (isoformat : Z -> string)
    (self1 self2 : WeatherAnalyzer) (city1 city2 : string) (now1 now2 : Z) :
  forecast_window now1 -> forecast_window now2 ->
  exists self1' d1 self2' d2,
    fetch_weather_forecast isoformat self1 city1 now1 = Ok (self1', d1) /\
    fetch_weather_forecast isoformat self2 city2 now2 = Ok (self2', d2) /\
    (now1 = now2 -> d1 = d2) /\
    length d1 = 40%nat /\ length d2 = 40%nat /\
    forall (i : nat) (r1 : WeatherRecord), d1 !! i = Some r1 ->
      datetime r1 = isoformat (sample_time now1 (Z.of_nat i)) /\
      d2 !! i = Some (with_datetime r1
                        (isoformat (sample_time now1 (Z.of_nat i) + (now2 - now1)))).
Proof.
  intros Hw1 Hw2. eexists _, _, _, _.
  split; [by apply fetch_closed_form|]. split; [by apply fetch_closed_form|].
  split; [by intros ->|]. split; [reflexivity|]. split; [reflexivity|].
  intros i r1 Hr1.
  assert (i < 40)%nat as Hi.
  { apply lookup_lt_Some in Hr1. by rewrite generated_length in Hr1. }
  rewrite generated_lookup in Hr1 by done. injection Hr1 as <-.
  split; [reflexivity|]. rewrite generated_lookup by done.
  unfold with_datetime, sample_record, sample_time. cbn [datetime temperature humidity wind_speed].
  do 3 f_equal. lia.
Qed.

Lemma fetch_deterministic_modulo_clock_witness :
  forecast_window clock_2025 /\
  forecast_window (clock_2025 + 1500) /\
  exists self1' d1 self2' d2,
    fetch_weather_forecast isoformat_us (__init__ None) "London" clock_2025
    = Ok (self1', d1) /\
    fetch_weather_forecast isoformat_us (__init__ (Some "k")) "Paris"
      (clock_2025 + 1500) = Ok (self2', d2) /\
    length d1 = 40%nat /\ length d2 = 40%nat.
Proof.
  assert (forecast_window (clock_2025 + 1500)) as Hw2.
  { unfold forecast_window. vm_compute. split; discriminate. }
  split; [exact clock_2025_in_window|]. split; [exact Hw2|].
  destruct (fetch_deterministic_modulo_clock isoformat_us (__init__ None)
              (__init__ (Some "k")) "London" "Paris" clock_2025
              (clock_2025 + 1500) clock_2025_in_window Hw2)
    as (s1 & d1 & s2 & d2 & H1 & H2 & _ & Hl1 & Hl2 & _).
  exists s1, d1, s2, d2. repeat split; assumption.
Defined.

(** ** The temperature analysis *)

Lemma fold_left_add_foldr (xs : list Z) (a : Z) :
  fold_left Z.add xs a = a + foldr Z.add 0 xs.
Proof.
  revert a. induction xs as [|x xs IH]; intros a; simpl; [lia|].
  rewrite IH. lia.
Qed.

Lemma py_sum_foldr (xs : list Z) : py_sum xs = foldr Z.add 0 xs.
Proof. unfold py_sum. rewrite fold_left_add_foldr. lia. Qed.




(** C5, as the code has it. On an empty record sequence the analysis raises
    the [ValueError] of [min] on an empty list; the division is not
    reached, and no value is returned. *)
Theorem analyze_empty_raises_ValueError (key url : string) :
  analyze_temperature_trends {| api_key := key; base_url := url; data := [] |}
  = Raise ValueError.
Proof. reflexivity. Qed.

(** C5, refuted as stated: the failure on the empty sequence of a fresh
    analyzer is not a division by zero. *)
Lemma analyze_empty_not_ZeroDivisionError :
  data (__init__ None) = [] /\
  analyze_temperature_trends (__init__ None) = Raise ValueError /\
  analyze_temperature_trends (__init__ None) ≠ Raise ZeroDivisionError.
Proof. repeat split. discriminate. Qed.

(** The division alone would raise [ZeroDivisionError] on the empty list. *)
Lemma true_div_empty : true_div (py_sum []) (py_len (@nil Z)) = Raise ZeroDivisionError.
Proof. reflexivity. Qed.




(** * Further properties of the code *)

(** ** Construction *)

(** X1. [__init__] never stores an empty API key: a missing key and the
    empty string are both replaced by the placeholder, every other key is
    kept as given; the analyzer starts without data. *)
Theorem init_api_key_never_empty (key : option string) :
  api_key (__init__ key) ≠ "" /\
  (forall k, key = Some k -> k ≠ "" -> api_key (__init__ key) = k) /\
  (api_key (__init__ key) = "YOUR_API_KEY" <->
     key = None \/ key = Some "" \/ key = Some "YOUR_API_KEY") /\
  data (__init__ key) = [].
Proof.
  destruct key as [k|]; cbn [__init__ api_key data].
  - destruct (String.eqb_spec k "") as [-> | Hk].
    + repeat split; try done; [|by auto].
      intros k' [= <-] Hk'. done.
    + repeat split; try done.
      * by intros k' [= <-] _.
      * intros ->. by auto.
      * intros [? | [[= ->] | [= ->]]]; done.
  - repeat split; try done. by auto.
Qed.

(** ** Failure of the generator *)

Lemma datetime_add_overflow (now delta : Z) :
  Datetime.max < now + delta -> Datetime.add now delta = Raise OverflowError.
Proof.
  intros H. unfold Datetime.add. cbv zeta.
  destruct (Z.leb_spec (now + delta) Datetime.max); [lia|].
  by rewrite andb_false_r.
Qed.

Lemma datetime_add_cases (now delta : Z) :
  Datetime.add now delta = Ok (now + delta) \/
  Datetime.add now delta = Raise OverflowError.
Proof. unfold Datetime.add. cbv zeta. destruct (_ && _); auto. Qed.

(** Once an index of the loop leaves the datetime range, the loop raises,
    whatever it did before. *)
Lemma generate_loop_overflow isoformat now idxs acc (j : Z) :
  Forall (fun i => 0 <= i < 40) idxs ->
  j ∈ idxs -> Datetime.max < now + j * 3 * Datetime.us_per_hour ->
  generate_loop isoformat now idxs acc = Raise OverflowError.
Proof.
  intros Hidx. revert acc.
  induction Hidx as [|i rest Hi _ IH]; intros acc Hj Hover.
  - by apply elem_of_nil in Hj.
  - cbn [generate_loop]. rewrite timedelta_hours_small by lia.
    cbn [mbind result_bind].
    destruct (datetime_add_cases now (i * 3 * Datetime.us_per_hour)) as [E | E];
      rewrite E; [|reflexivity].
    cbn [mbind result_bind]. apply IH; [|done].
    apply elem_of_cons in Hj as [-> | Hj]; [|done].
    rewrite datetime_add_overflow in E by done. discriminate.
Qed.

(** X2. For a clock reading that is a Python datetime, the fetch raises
    exactly when the last of the 40 instants, 117 hours after the clock
    reading, lies beyond [datetime.max]; the exception is then
    [OverflowError], and the fetch raises no other exception. *)
Theorem fetch_raises_iff_window_overflows (isoformat : Z -> string)
    (self : WeatherAnalyzer) (city : string) (now : Z) :
  0 <= now <= Datetime.max ->
  (fetch_weather_forecast isoformat self city now = Raise OverflowError <->
     Datetime.max < now + 117 * Datetime.us_per_hour) /\
  (forall e, fetch_weather_forecast isoformat self city now = Raise e ->
     e = OverflowError).
Proof.
  intros [Hlo Hhi].
  destruct (Z_lt_le_dec Datetime.max (now + 117 * Datetime.us_per_hour))
    as [Hover | Hin].
  - assert (fetch_weather_forecast isoformat self city now = Raise OverflowError)
      as Hraise.
    { unfold fetch_weather_forecast, _generate_sample_data.
      rewrite (generate_loop_overflow isoformat now (range 40) [] 39);
        [reflexivity | apply (range_bounds 40) | | lia].
      apply list_elem_of_lookup. exists 39%nat. apply (range_lookup 40 39). lia. }
    split; [done|]. intros e. rewrite Hraise. by intros [= <-].
  - assert (forecast_window now) as Hw by done.
    rewrite fetch_closed_form by done. split; [|done].
    split; [done | lia].
Qed.

Lemma fetch_raises_iff_window_overflows_witness :
  0 <= Datetime.max - 1 <= Datetime.max /\
  fetch_weather_forecast isoformat_us (__init__ None) "London" (Datetime.max - 1)
  = Raise OverflowError.
Proof.
  assert (0 <= Datetime.max - 1 <= Datetime.max) as Hclock
    by (vm_compute; split; discriminate).
  split; [exact Hclock|].
  apply (fetch_raises_iff_window_overflows isoformat_us (__init__ None) "London"
           (Datetime.max - 1) Hclock).
  vm_compute. reflexivity.
Defined.



(** ** Structure of the generated data *)

(** X4. In the generated data the wind speed is a function of the
    humidity, [5 + (humidity - 60) mod 10], and the records 20 places apart
    agree on both: the 40 records give at most 20 distinct
    humidity/wind-speed points. *)
Theorem generated_wind_follows_humidity (isoformat : Z -> string) (now : Z) :
  forecast_window now ->
  exists d, _generate_sample_data isoformat now = Ok d /\
    (forall (i : nat) (r : WeatherRecord), d !! i = Some r ->
       wind_speed r = 5 + (humidity r - 60) mod 10) /\
    (forall (i : nat) (r r' : WeatherRecord),
       d !! i = Some r -> d !! (i + 20)%nat = Some r' ->
       humidity r' = humidity r /\ wind_speed r' = wind_speed r).
Proof.
  intros Hw. eexists. split; [by apply generate_closed_form|].
  assert (forall (i : nat) r,
            (sample_record isoformat now <$> range 40) !! i = Some r ->
            (i < 40)%nat /\ r = sample_record isoformat now (Z.of_nat i)) as Hget.
  { intros i r Hr.
    assert (i < 40)%nat as Hi.
    { apply lookup_lt_Some in Hr. by rewrite generated_length in Hr. }
    rewrite generated_lookup in Hr by done. by injection Hr as <-. }
  split.
  - intros i r Hr. apply Hget in Hr as [_ ->].
    cbn [sample_record wind_speed humidity].
    replace (60 + Z.of_nat i mod 20 - 60) with (Z.of_nat i mod 20) by lia.
    f_equal. symmetry. apply (Z.mod_mod_divide (Z.of_nat i) 20 10).
    exists 2. reflexivity.
  - intros i r r' Hr Hr'. apply Hget in Hr as [_ ->]. apply Hget in Hr' as [_ ->].
    cbn [sample_record wind_speed humidity]. rewrite Nat2Z.inj_add.
    change (Z.of_nat 20) with (1 * 20) at 1.
    change (Z.of_nat 20) with (2 * 10).
    rewrite !Z.mod_add by lia. done.
Qed.

Lemma generated_wind_follows_humidity_witness :
  forecast_window clock_2025 /\
  exists d, _generate_sample_data isoformat_us clock_2025 = Ok d /\
    forall (i : nat) (r : WeatherRecord), d !! i = Some r ->
      wind_speed r = 5 + (humidity r - 60) mod 10.
Proof.
  split; [exact clock_2025_in_window|].
  destruct (generated_wind_follows_humidity isoformat_us clock_2025
              clock_2025_in_window) as (d & Hd & Hwind & _).
  exists d. split; assumption.
Defined.

(** X5. The generated temperatures repeat every 24 samples (three days) and
    never from one day to the next: the records 24 places apart have the
    same temperature, the records 8 places apart have different ones. *)
Theorem generated_temperature_period (isoformat : Z -> string) (now : Z) :
  forecast_window now ->
  exists d, _generate_sample_data isoformat now = Ok d /\
    (forall (i : nat) (r r' : WeatherRecord),
       d !! i = Some r -> d !! (i + 24)%nat = Some r' ->
       temperature r' = temperature r) /\
    (forall (i : nat) (r r' : WeatherRecord),
       d !! i = Some r -> d !! (i + 8)%nat = Some r' ->
       temperature r' ≠ temperature r).
Proof.
  intros Hw. eexists. split; [by apply generate_closed_form|].
  assert (forall (i : nat) r,
            (sample_record isoformat now <$> range 40) !! i = Some r ->
            (i < 40)%nat /\ r = sample_record isoformat now (Z.of_nat i)) as Hget.
  { intros i r Hr.
    assert (i < 40)%nat as Hi.
    { apply lookup_lt_Some in Hr. by rewrite generated_length in Hr. }
    rewrite generated_lookup in Hr by done. by injection Hr as <-. }
  split.
  - intros i r r' Hr Hr'. apply Hget in Hr as [_ ->]. apply Hget in Hr' as [_ ->].
    cbn [sample_record temperature]. rewrite Nat2Z.inj_add.
    change (Z.of_nat 24) with (3 * 8) at 1.
    change (Z.of_nat 24) with (8 * 3).
    rewrite !Z.mod_add by lia. done.
  - intros i r r' Hr Hr'. apply Hget in Hr as [_ ->]. apply Hget in Hr' as [_ ->].
    cbn [sample_record temperature]. rewrite Nat2Z.inj_add.
    change (Z.of_nat 8) with (1 * 8) at 1.
    rewrite Z.mod_add by lia. change (Z.of_nat 8) with 8.
    intros Heq.
    assert ((Z.of_nat i + 8) mod 3 = Z.of_nat i mod 3) as Hmod by lia.
    revert Hmod. clear. intros Hmod.
    pose proof (Z.div_mod (Z.of_nat i + 8) 3 ltac:(lia)).
    pose proof (Z.div_mod (Z.of_nat i) 3 ltac:(lia)).
    pose proof (Z.mod_pos_bound (Z.of_nat i) 3 ltac:(lia)).
    lia.
Qed.

Lemma generated_temperature_period_witness :
  forecast_window clock_2025 /\
  exists d, _generate_sample_data isoformat_us clock_2025 = Ok d /\
    forall (i : nat) (r r' : WeatherRecord),
      d !! i = Some r -> d !! (i + 24)%nat = Some r' ->
      temperature r' = temperature r.
Proof.
  split; [exact clock_2025_in_window|].
  destruct (generated_temperature_period isoformat_us clock_2025
              clock_2025_in_window) as (d & Hd & Hperiod & _).
  exists d. split; assumption.
Defined.

(** ** The analysis as a function of the temperature list *)

Lemma py_min_inv (xs : list Z) (m : Z) :
  py_min xs = Ok m -> xs ≠ [] /\ m ∈ xs /\ forall y, y ∈ xs -> m <= y.
Proof.
  intros Hm. assert (xs ≠ []) as Hne by (intros ->; discriminate).
  destruct (py_min_spec xs Hne) as (m' & Hm' & Hin & Hle).
  rewrite Hm in Hm'. injection Hm' as <-. done.
Qed.

Lemma py_max_inv (xs : list Z) (m : Z) :
  py_max xs = Ok m -> xs ≠ [] /\ m ∈ xs /\ forall y, y ∈ xs -> y <= m.
Proof.
  intros Hm. assert (xs ≠ []) as Hne by (intros ->; discriminate).
  destruct (py_max_spec xs Hne) as (m' & Hm' & Hin & Hle).
  rewrite Hm in Hm'. injection Hm' as <-. done.
Qed.

(** The least element of a list is determined by the list. *)
Lemma py_min_intro (xs : list Z) (m : Z) :
  m ∈ xs -> (forall y, y ∈ xs -> m <= y) -> py_min xs = Ok m.
Proof.
  intros Hin Hle. assert (xs ≠ []) as Hne by (intros ->; by apply elem_of_nil in Hin).
  destruct (py_min_spec xs Hne) as (m' & -> & Hin' & Hle').
  f_equal. pose proof (Hle _ Hin'). pose proof (Hle' _ Hin). lia.
Qed.

Lemma py_max_intro (xs : list Z) (m : Z) :
  m ∈ xs -> (forall y, y ∈ xs -> y <= m) -> py_max xs = Ok m.
Proof.
  intros Hin Hle. assert (xs ≠ []) as Hne by (intros ->; by apply elem_of_nil in Hin).
  destruct (py_max_spec xs Hne) as (m' & -> & Hin' & Hle').
  f_equal. pose proof (Hle _ Hin'). pose proof (Hle' _ Hin). lia.
Qed.

Lemma analyze_ok_inv (self : WeatherAnalyzer) (lo hi : Z) (mean : Q) :
  analyze_temperature_trends self = Ok (lo, hi, mean) ->
  py_min (temperature <$> data self) = Ok lo /\
  py_max (temperature <$> data self) = Ok hi /\
  0 < py_len (temperature <$> data self) /\
  mean = (inject_Z (py_sum (temperature <$> data self))
          / inject_Z (py_len (temperature <$> data self)))%Q.
Proof.
  unfold analyze_temperature_trends. cbv zeta.
  destruct (py_min (temperature <$> data self)) as [lo'|] eqn:Hmin; [|discriminate].
  destruct (py_max (temperature <$> data self)) as [hi'|] eqn:Hmax; [|discriminate].
  apply py_min_inv in Hmin as (Hne & _).
  pose proof (py_len_pos _ Hne) as Hlen.
  cbn [mbind result_bind]. rewrite true_div_pos by exact Hlen.
  cbn [mbind result_bind mret result_ret]. intros [= <- <- <-]. done.
Qed.

Lemma analyze_ok_intro (self : WeatherAnalyzer) (lo hi : Z) :
  py_min (temperature <$> data self) = Ok lo ->
  py_max (temperature <$> data self) = Ok hi ->
  analyze_temperature_trends self
  = Ok (lo, hi, (inject_Z (py_sum (temperature <$> data self))
                 / inject_Z (py_len (temperature <$> data self)))%Q).
Proof.
  intros Hmin Hmax. unfold analyze_temperature_trends. cbv zeta.
  rewrite Hmin, Hmax. apply py_min_inv in Hmin as (Hne & _).
  cbn [mbind result_bind]. rewrite true_div_pos by (by apply py_len_pos).
  reflexivity.
Qed.

Lemma py_sum_app (xs ys : list Z) : py_sum (xs ++ ys) = py_sum xs + py_sum ys.
Proof. rewrite !py_sum_foldr, foldr_app. induction xs; simpl; lia. Qed.

Lemma py_len_app {A} (xs ys : list A) : py_len (xs ++ ys) = py_len xs + py_len ys.
Proof. unfold py_len. rewrite length_app. lia. Qed.

Lemma py_sum_permutation (xs ys : list Z) : xs ≡ₚ ys -> py_sum xs = py_sum ys.
Proof.
  intros Hp. rewrite !py_sum_foldr.
  induction Hp; simpl; lia.
Qed.

Lemma py_min_permutation (xs ys : list Z) : xs ≡ₚ ys -> py_min xs = py_min ys.
Proof.
  intros Hp. destruct xs as [|x xs'].
  - apply Permutation_nil in Hp as ->. reflexivity.
  - destruct (py_min_spec (x :: xs') ltac:(done)) as (m & -> & Hin & Hle).
    symmetry. apply py_min_intro.
    + by rewrite <- Hp.
    + intros y Hy. apply Hle. by rewrite Hp.
Qed.

Lemma py_max_permutation (xs ys : list Z) : xs ≡ₚ ys -> py_max xs = py_max ys.
Proof.
  intros Hp. destruct xs as [|x xs'].
  - apply Permutation_nil in Hp as ->. reflexivity.
  - destruct (py_max_spec (x :: xs') ltac:(done)) as (m & -> & Hin & Hle).
    symmetry. apply py_max_intro.
    + by rewrite <- Hp.
    + intros y Hy. apply Hle. by rewrite Hp.
Qed.

(** An element above the lower bound, or below the upper bound, moves the
    sum off the bound. *)
Lemma py_sum_above (xs : list Z) (lo x : Z) :
  (forall y, y ∈ xs -> lo <= y) -> x ∈ xs ->
  py_len xs * lo + (x - lo) <= py_sum xs.
Proof.
  rewrite py_sum_foldr. unfold py_len.
  induction xs as [|y xs IH]; intros Hlo Hx; [by apply elem_of_nil in Hx|].
  rewrite length_cons, Nat2Z.inj_succ. cbn [foldr].
  assert (lo <= y) by (apply Hlo; left).
  assert (forall z, z ∈ xs -> lo <= z) as Hlo' by (intros z Hz; apply Hlo; by right).
  apply elem_of_cons in Hx as [-> | Hx].
  - pose proof (py_sum_bounds xs lo lo) as Hb. rewrite py_sum_foldr in Hb.
    unfold py_len in Hb.
    assert (Z.of_nat (length xs) * lo <= foldr Z.add 0 xs); [|lia].
    clear -Hlo'. induction xs as [|z xs IH]; simpl; [lia|].
    assert (lo <= z) by (apply Hlo'; left).
    assert (Z.of_nat (length xs) * lo <= foldr Z.add 0 xs)
      by (apply IH; intros w Hw; apply Hlo'; by right).
    lia.
  - specialize (IH Hlo' Hx). lia.
Qed.

Lemma py_sum_below (xs : list Z) (hi x : Z) :
  (forall y, y ∈ xs -> y <= hi) -> x ∈ xs ->
  py_sum xs <= py_len xs * hi - (hi - x).
Proof.
  rewrite py_sum_foldr. unfold py_len.
  induction xs as [|y xs IH]; intros Hhi Hx; [by apply elem_of_nil in Hx|].
  rewrite length_cons, Nat2Z.inj_succ. cbn [foldr].
  assert (y <= hi) by (apply Hhi; left).
  assert (forall z, z ∈ xs -> z <= hi) as Hhi' by (intros z Hz; apply Hhi; by right).
  apply elem_of_cons in Hx as [-> | Hx].
  - assert (foldr Z.add 0 xs <= Z.of_nat (length xs) * hi); [|lia].
    clear -Hhi'. induction xs as [|z xs IH]; simpl; [lia|].
    assert (z <= hi) by (apply Hhi'; left).
    assert (foldr Z.add 0 xs <= Z.of_nat (length xs) * hi)
      by (apply IH; intros w Hw; apply Hhi'; by right).
    lia.
  - specialize (IH Hhi' Hx). lia.
Qed.

Lemma quotient_strictly_between (lo hi s n : Z) :
  0 < n -> n * lo < s < n * hi ->
  (inject_Z lo < inject_Z s / inject_Z n)%Q /\
  (inject_Z s / inject_Z n < inject_Z hi)%Q.
Proof.
  intros Hn [Hlo Hhi].
  assert (0 < inject_Z n)%Q as Hn' by (rewrite (Zlt_Qlt 0 n) in Hn; exact Hn).
  split.
  - apply Qlt_shift_div_l; [exact Hn'|].
    rewrite <- inject_Z_mult, <- Zlt_Qlt. lia.
  - apply Qlt_shift_div_r; [exact Hn'|].
    rewrite <- inject_Z_mult, <- Zlt_Qlt. lia.
Qed.

(** ** Error behaviour and algebra of the analysis *)










